(** * Learning-Strands-Agents: the weather lookup tools and the Lambda shim

    A shallow embedding of

    - [04_mcp_integration/weather_mcp.py]      ([get_weather]), and
    - [05_deployment/package/lambda_function.py] ([weather_info],
      [lambda_handler]),

    followed by the properties the specification states about them.

    Python values are modelled by an inductive type of JSON-like values,
    Python strings by lists of Unicode code points, and Python code by a
    small state-and-exception monad over the state of the process (what was
    printed, and the agent with the calls it received).  What the scripts
    import (the agent, [json.loads], the non-ASCII half of [str.lower]) is a
    variable of the section. *)

From Stdlib Require Import List NArith ZArith Bool String Ascii Lia DecimalString.
Import ListNotations.

Set Warnings "-register-all".

(* ================================================================== *)
(** ** Python strings *)

(** A [str] is a sequence of code points. *)
Definition pystr := list N.

(** [u "abc"] is the [str] written by an ASCII literal. *)
Definition u (s : string) : pystr := map N_of_ascii (list_ascii_of_string s).

Definition DEGREE_SIGN : N := 176.      (* U+00B0 *)
Definition QUOTATION_MARK : N := 34.    (* U+0022 *)

(** [a == b] on [str]. *)
Fixpoint str_eqb (a b : pystr) : bool :=
  match a, b with
  | [], [] => true
  | x :: a', y :: b' => N.eqb x y && str_eqb a' b'
  | _, _ => false
  end.

(** [s.startswith(p)]. *)
Fixpoint starts_with (p s : pystr) : bool :=
  match p, s with
  | [], _ => true
  | x :: p', y :: s' => N.eqb x y && starts_with p' s'
  | _ :: _, [] => false
  end.

(** [needle in hay]. *)
Fixpoint contains (needle hay : pystr) : bool :=
  starts_with needle hay ||
  match hay with
  | [] => false
  | _ :: t => contains needle t
  end.

(** The same, as a proposition. *)
Definition substring (needle hay : pystr) : Prop :=
  exists pre post, hay = pre ++ needle ++ post.

Definition is_ascii (c : N) : bool := (c <? 128)%N.

(** [Py_TOLOWER]: the lower-case mapping of an ASCII character. *)
Definition ascii_tolower (c : N) : N :=
  if ((65 <=? c) && (c <=? 90))%N then (c + 32)%N else c.

(** Two strings that differ at most in the case of their ASCII letters. *)
Definition casing_variant (s k : pystr) : Prop :=
  map ascii_tolower s = map ascii_tolower k.

(* ================================================================== *)
(** ** Python values and exceptions *)

(** The values the two scripts handle: what [json.loads] and the Lambda
    runtime produce, and [PObj] for an object of any other class.  A float
    is kept as what the code can observe of it: whether it is non-zero (its
    truth value) and the text [json.dumps] writes for it. *)
Inductive pyval : Type :=
| PNone
| PBool (b : bool)
| PInt (z : Z)
| PFloat (nonzero : bool) (text : pystr)
| PStr (s : pystr)
| PList (l : list pyval)
| PDict (d : list (pystr * pyval))
| PObj (cls : pystr).

(** An instance of [Exception], the class the [except] clause of
    [lambda_handler] names: its class and [str(e)].  What the scripts call
    can fail with such an instance only; a signal outside [Exception]
    ([KeyboardInterrupt], [SystemExit]) ends the process and is not part of
    the model. *)
Record exn : Type := mkExn { exn_class : pystr; exn_text : pystr }.

Inductive outcome (A : Type) : Type :=
| Ok (a : A)
| Raise (e : exn).
Arguments Ok {A} a.
Arguments Raise {A} e.

(** A dict with [str] keys, in insertion order. *)
Fixpoint dict_lookup {V : Type} (d : list (pystr * V)) (k : pystr) : option V :=
  match d with
  | [] => None
  | (k', v) :: d' => if str_eqb k' k then Some v else dict_lookup d' k
  end.

(** [d.get(key, default)] on a dict. *)
Definition dict_get {V : Type} (d : list (pystr * V)) (key : pystr) (default : V) : V :=
  match dict_lookup d key with
  | Some v => v
  | None => default
  end.

Definition dict_keys {V : Type} (d : list (pystr * V)) : list pystr := map fst d.

(** [type(v).__name__]. *)
Definition type_name (v : pyval) : pystr :=
  match v with
  | PNone => u "NoneType"
  | PBool _ => u "bool"
  | PInt _ => u "int"
  | PFloat _ _ => u "float"
  | PStr _ => u "str"
  | PList _ => u "list"
  | PDict _ => u "dict"
  | PObj cls => cls
  end.

(** [bool(v)], as [not v] and [if v] use it. *)
Definition truthy (v : pyval) : bool :=
  match v with
  | PNone => false
  | PBool b => b
  | PInt z => negb (z =? 0)%Z
  | PFloat nz _ => nz
  | PStr s => match s with [] => false | _ => true end
  | PList l => match l with [] => false | _ => true end
  | PDict d => match d with [] => false | _ => true end
  | PObj _ => true
  end.

Definition AttributeError (v : pyval) (attr : pystr) : exn :=
  mkExn (u "AttributeError")
        (u "'" ++ type_name v ++ u "' object has no attribute '" ++ attr ++ u "'").

Definition TypeError (text : pystr) : exn := mkExn (u "TypeError") text.

(* ================================================================== *)
(** ** [json.dumps] with its default settings *)

Definition hex_digit (n : N) : N :=
  if (n <? 10)%N then (48 + n)%N else (87 + n)%N.

(** ['\\u{0:04x}'.format(n)]. *)
Definition escape_u (n : N) : pystr :=
  u "\u" ++ [hex_digit (N.land (N.shiftr n 12) 15); hex_digit (N.land (N.shiftr n 8) 15);
             hex_digit (N.land (N.shiftr n 4) 15); hex_digit (N.land n 15)].

(** One character of [py_encode_basestring_ascii]. *)
Definition escape_char (c : N) : pystr :=
  if (c =? 34)%N then u "\" ++ [QUOTATION_MARK]
  else if (c =? 92)%N then u "\\"
  else if (c =? 10)%N then u "\n"
  else if (c =? 13)%N then u "\r"
  else if (c =? 9)%N then u "\t"
  else if (c =? 8)%N then u "\b"
  else if (c =? 12)%N then u "\f"
  else if ((32 <=? c) && (c <=? 126))%N then [c]
  else if (c <? 65536)%N then escape_u c
  else
    let v := (c - 65536)%N in
    escape_u (N.lor 55296 (N.land (N.shiftr v 10) 1023)) ++
    escape_u (N.lor 56320 (N.land v 1023)).

Definition encode_basestring_ascii (s : pystr) : pystr :=
  [QUOTATION_MARK] ++ flat_map escape_char s ++ [QUOTATION_MARK].

(** [int.__repr__]. *)
Definition int_repr (z : Z) : pystr := u (NilEmpty.string_of_int (Z.to_int z)).

(** [sep.join(parts)]. *)
Fixpoint join (sep : pystr) (parts : list pystr) : pystr :=
  match parts with
  | [] => []
  | [p] => p
  | p :: rest => p ++ sep ++ join sep rest
  end.

(** The encoder: separators [", "] and [": "], [ensure_ascii], no sorting;
    an object of a class it does not know raises [TypeError]. *)
Fixpoint json_dumps (v : pyval) : outcome pystr :=
  match v with
  | PNone => Ok (u "null")
  | PBool true => Ok (u "true")
  | PBool false => Ok (u "false")
  | PInt z => Ok (int_repr z)
  | PFloat _ text => Ok text
  | PStr s => Ok (encode_basestring_ascii s)
  | PList l =>
      match (fix items (l : list pyval) : outcome (list pystr) :=
               match l with
               | [] => Ok []
               | x :: r =>
                   match json_dumps x with
                   | Raise e => Raise e
                   | Ok sx => match items r with
                              | Raise e => Raise e
                              | Ok sr => Ok (sx :: sr)
                              end
                   end
               end) l with
      | Raise e => Raise e
      | Ok parts => Ok (u "[" ++ join (u ", ") parts ++ u "]")
      end
  | PDict d =>
      match (fix items (d : list (pystr * pyval)) : outcome (list pystr) :=
               match d with
               | [] => Ok []
               | (k, x) :: r =>
                   match json_dumps x with
                   | Raise e => Raise e
                   | Ok sx => match items r with
                              | Raise e => Raise e
                              | Ok sr => Ok ((encode_basestring_ascii k ++ u ": " ++ sx) :: sr)
                              end
                   end
               end) d with
      | Raise e => Raise e
      | Ok parts => Ok (u "{" ++ join (u ", ") parts ++ u "}")
      end
  | PObj cls =>
      Raise (TypeError (u "Object of type " ++ cls ++ u " is not JSON serializable"))
  end.

(** The two loops of the encoder, by name: the texts of the items of a
    list, and of the fields of a dict. *)
Definition dumps_items (l : list pyval) : outcome (list pystr) :=
  (fix items (l : list pyval) : outcome (list pystr) :=
     match l with
     | [] => Ok []
     | x :: r =>
         match json_dumps x with
         | Raise e => Raise e
         | Ok sx => match items r with
                    | Raise e => Raise e
                    | Ok sr => Ok (sx :: sr)
                    end
         end
     end) l.

Definition dumps_fields (d : list (pystr * pyval)) : outcome (list pystr) :=
  (fix items (d : list (pystr * pyval)) : outcome (list pystr) :=
     match d with
     | [] => Ok []
     | (k, x) :: r =>
         match json_dumps x with
         | Raise e => Raise e
         | Ok sx => match items r with
                    | Raise e => Raise e
                    | Ok sr => Ok ((encode_basestring_ascii k ++ u ": " ++ sx) :: sr)
                    end
         end
     end) d.

(** A value with no object of an unknown class anywhere inside. *)
Fixpoint json_safe (v : pyval) : bool :=
  match v with
  | PList l =>
      (fix all (l : list pyval) : bool :=
         match l with
         | [] => true
         | x :: r => json_safe x && all r
         end) l
  | PDict d =>
      (fix all (d : list (pystr * pyval)) : bool :=
         match d with
         | [] => true
         | (_, x) :: r => json_safe x && all r
         end) d
  | PObj _ => false
  | _ => true
  end.

(** What the encoder does on a value, as [json_safe] decides it: a text, or
    a [TypeError]. *)
Definition dumps_as_safe (v : pyval) : Prop :=
  if json_safe v
  then exists text, json_dumps v = Ok text
  else exists e, json_dumps v = Raise e /\ exn_class e = u "TypeError".

(** The characters from the space to the tilde. *)
Definition printable_ascii (c : N) : bool := ((32 <=? c) && (c <=? 126))%N.

(* ================================================================== *)
(** ** The state of the process *)

(** What a run can change: the lines written by [print], and the agent
    (its own state of type [Mem], and the arguments it was called with,
    oldest first). *)
Record world (Mem : Type) : Type := mkWorld {
  stdout : list pystr;
  agent_calls : list pyval;
  agent_state : Mem
}.

(** What [agent(...)] returns: an object with a [message] attribute. *)
Record reply : Type := mkReply { message : pyval }.

(** The two lookup tools of the repository. *)
Inductive lookup_tool : Type := GetWeather | WeatherInfo.

(** [text] between two quotation marks. *)
Definition quoted (text : pystr) : pystr := QUOTATION_MARK :: text ++ [QUOTATION_MARK].

(** The JSON texts [{"error": "<text>"}] and [{"message": "<text>"}],
    character by character. *)
Definition error_body (text : pystr) : pystr :=
  u "{" ++ quoted (u "error") ++ u ": " ++ quoted text ++ u "}".

Definition message_body (text : pystr) : pystr :=
  u "{" ++ quoted (u "message") ++ u ": " ++ quoted text ++ u "}".

(** [{'statusCode': status, 'body': body}]. *)
Definition http_response (status : Z) (body : pystr) : pyval :=
  PDict [(u "statusCode", PInt status); (u "body", PStr body)].

(** [response['statusCode']], when the response has one. *)
Definition status_code (response : pyval) : option Z :=
  match response with
  | PDict d =>
      match dict_lookup d (u "statusCode") with
      | Some (PInt status) => Some status
      | _ => None
      end
  | _ => None
  end.

(** How many of the responses carry the status [status]. *)
Definition count_status (status : Z) (responses : list pyval) : nat :=
  List.length
    (filter (fun r => match status_code r with
                      | Some z => (z =? status)%Z
                      | None => false
                      end) responses).

Arguments mkWorld {Mem} _ _ _.
Arguments stdout {Mem} _.
Arguments agent_calls {Mem} _.
Arguments agent_state {Mem} _.

(* ================================================================== *)
(** ** A concrete setting to run the scripts in *)

(** A decoder for a fragment of JSON (objects, arrays, strings with the
    one-letter escapes, integers, [true], [false], [null]); anything else
    is rejected with [JSONDecodeError]. *)
Definition JSONDecodeError (text : pystr) : exn := mkExn (u "JSONDecodeError") text.

Definition is_ws (c : N) : bool :=
  ((c =? 32) || (c =? 9) || (c =? 10) || (c =? 13))%N.

Definition is_digit (c : N) : bool := ((48 <=? c) && (c <=? 57))%N.

Fixpoint skip_ws (s : pystr) : pystr :=
  match s with
  | c :: r => if is_ws c then skip_ws r else s
  | [] => []
  end.

Fixpoint strip_prefix (p s : pystr) : option pystr :=
  match p, s with
  | [], _ => Some s
  | x :: p', y :: s' => if (x =? y)%N then strip_prefix p' s' else None
  | _ :: _, [] => None
  end.

Definition unescape (c : N) : option N :=
  if (c =? 34)%N then Some 34%N
  else if (c =? 92)%N then Some 92%N
  else if (c =? 47)%N then Some 47%N
  else if (c =? 98)%N then Some 8%N
  else if (c =? 102)%N then Some 12%N
  else if (c =? 110)%N then Some 10%N
  else if (c =? 114)%N then Some 13%N
  else if (c =? 116)%N then Some 9%N
  else None.

(** After the opening quotation mark: the text, and what follows the
    closing one. *)
Fixpoint scan_string (s acc : pystr) : option (pystr * pystr) :=
  match s with
  | [] => None
  | c :: r =>
      if (c =? 34)%N then Some (rev acc, r)
      else if (c =? 92)%N then
        match r with
        | e :: r' =>
            match unescape e with
            | Some x => scan_string r' (x :: acc)
            | None => None
            end
        | [] => None
        end
      else if (c <? 32)%N then None
      else scan_string r (c :: acc)
  end.

Fixpoint scan_digits (s : pystr) (acc : Z) : Z * pystr :=
  match s with
  | c :: r =>
      if is_digit c then scan_digits r (10 * acc + Z.of_N (c - 48))%Z else (acc, s)
  | [] => (acc, [])
  end.

Definition scan_natural (s : pystr) : option (Z * pystr) :=
  match s with
  | c :: r =>
      if (c =? 48)%N then Some (0%Z, r)
      else if is_digit c then Some (scan_digits s 0%Z)
      else None
  | [] => None
  end.

Definition scan_int (s : pystr) : option (Z * pystr) :=
  let signed :=
    match s with
    | c :: r =>
        if (c =? 45)%N then
          match scan_natural r with
          | Some (n, rest) => Some ((- n)%Z, rest)
          | None => None
          end
        else scan_natural s
    | [] => None
    end in
  match signed with
  | Some (n, c :: rest) =>
      (* a fraction or an exponent: not in the fragment *)
      if ((c =? 46) || (c =? 101) || (c =? 69))%N then None else Some (n, c :: rest)
  | other => other
  end.

(** [d[k] = v]. *)
Fixpoint dict_set {V : Type} (d : list (pystr * V)) (k : pystr) (v : V) : list (pystr * V) :=
  match d with
  | [] => [(k, v)]
  | (k', v') :: d' => if str_eqb k' k then (k', v) :: d' else (k', v') :: dict_set d' k v
  end.

Fixpoint parse_value (fuel : nat) (s : pystr) : option (pyval * pystr) :=
  match fuel with
  | O => None
  | S fuel' =>
      match skip_ws s with
      | [] => None
      | c :: r =>
          if (c =? 34)%N then
            match scan_string r [] with
            | Some (t, rest) => Some (PStr t, rest)
            | None => None
            end
          else if (c =? 123)%N then
            match skip_ws r with
            | c' :: r' =>
                if (c' =? 125)%N then Some (PDict [], r')
                else parse_members fuel' (c' :: r') []
            | [] => None
            end
          else if (c =? 91)%N then
            match skip_ws r with
            | c' :: r' =>
                if (c' =? 93)%N then Some (PList [], r')
                else parse_items fuel' (c' :: r') []
            | [] => None
            end
          else
            match strip_prefix (u "null") (c :: r) with
            | Some rest => Some (PNone, rest)
            | None =>
            match strip_prefix (u "true") (c :: r) with
            | Some rest => Some (PBool true, rest)
            | None =>
            match strip_prefix (u "false") (c :: r) with
            | Some rest => Some (PBool false, rest)
            | None =>
            match scan_int (c :: r) with
            | Some (n, rest) => Some (PInt n, rest)
            | None => None
            end end end end
      end
  end
with parse_members (fuel : nat) (s : pystr) (acc : list (pystr * pyval))
  : option (pyval * pystr) :=
  match fuel with
  | O => None
  | S fuel' =>
      match s with
      | c :: r =>
          if (c =? 34)%N then
            match scan_string r [] with
            | Some (k, rest) =>
                match skip_ws rest with
                | c1 :: rest1 =>
                    if (c1 =? 58)%N then
                      match parse_value fuel' rest1 with
                      | Some (v, rest2) =>
                          match skip_ws rest2 with
                          | c2 :: rest3 =>
                              if (c2 =? 44)%N then
                                parse_members fuel' (skip_ws rest3) (dict_set acc k v)
                              else if (c2 =? 125)%N then
                                Some (PDict (dict_set acc k v), rest3)
                              else None
                          | [] => None
                          end
                      | None => None
                      end
                    else None
                | [] => None
                end
            | None => None
            end
          else None
      | [] => None
      end
  end
with parse_items (fuel : nat) (s : pystr) (acc : list pyval) : option (pyval * pystr) :=
  match fuel with
  | O => None
  | S fuel' =>
      match parse_value fuel' s with
      | Some (v, rest) =>
          match skip_ws rest with
          | c :: rest' =>
              if (c =? 44)%N then parse_items fuel' rest' (acc ++ [v])
              else if (c =? 93)%N then Some (PList (acc ++ [v]), rest')
              else None
          | [] => None
          end
      | None => None
      end
  end.

Definition json_decode_fragment (s : pystr) : outcome pyval :=
  match parse_value (S (List.length s)) s with
  | Some (v, rest) =>
      match skip_ws rest with
      | [] => Ok v
      | _ :: _ => Raise (JSONDecodeError (u "Extra data"))
      end
  | None => Raise (JSONDecodeError (u "Expecting value"))
  end.

(** An agent that keeps count of its calls: it answers "hello" with
    "hi there" and fails on every other prompt. *)
Definition greeter (prompt : pyval) (n : nat) : outcome reply * nat :=
  match prompt with
  | PStr s =>
      if str_eqb s (u "hello")
      then (Ok (mkReply (PStr (u "hi there"))), S n)
      else (Raise (mkExn (u "RuntimeError") (u "model not reachable")), S n)
  | _ => (Raise (TypeError (u "prompt must be a string")), S n)
  end.

(** An agent whose reply carries an object [json.dumps] does not know. *)
Definition opaque_agent (prompt : pyval) (n : nat) : outcome reply * nat :=
  (Ok (mkReply (PObj (u "AgentResult"))), S n).

(** An agent that answers a text with the same text. *)
Definition echo_agent (prompt : pyval) (n : nat) : outcome reply * nat :=
  match prompt with
  | PStr s => (Ok (mkReply (PStr s)), S n)
  | _ => (Raise (TypeError (u "prompt must be a string")), S n)
  end.

(** A lower-casing of the ASCII letters only. *)
Definition ascii_only_lower (s : pystr) : pystr := map ascii_tolower s.

(** A process that has not printed anything nor called its agent. *)
Definition fresh : world nat := mkWorld [] [] 0.

(** [{'body': text}]. *)
Definition event_with_body (text : pystr) : pyval := PDict [(u "body", PStr text)].

Section Scripts.

(** The state of the agent. *)
Variable Mem : Type.

(** [str.lower] on a string that is not pure ASCII (Unicode case mapping). *)
Variable unicode_lower : pystr -> pystr.

(** [json.loads] on a [str]: the decoded value, or the exception it raises
    ([JSONDecodeError] on a text that is not JSON). *)
Variable json_decode : pystr -> outcome pyval.

(** The module-level [agent]: called on a prompt, it returns a reply or
    raises, and moves to a new state. *)
Variable agent : pyval -> Mem -> outcome reply * Mem.

(** *** The monad of Python code *)

Definition M (A : Type) : Type := world Mem -> outcome A * world Mem.

Definition ret {A : Type} (a : A) : M A := fun w => (Ok a, w).

Definition raise {A : Type} (e : exn) : M A := fun w => (Raise e, w).

Definition bind {A B : Type} (m : M A) (k : A -> M B) : M B :=
  fun w =>
    match m w with
    | (Ok a, w') => k a w'
    | (Raise e, w') => (Raise e, w')
    end.

Local Notation "x <- c ;; k" := (bind c (fun x => k))
  (at level 61, c at next level, right associativity).

(** [try: body  except Exception as e: handler]. *)
Definition try_except {A : Type} (body : M A) (handler : exn -> M A) : M A :=
  fun w =>
    match body w with
    | (Ok a, w') => (Ok a, w')
    | (Raise e, w') => handler e w'
    end.

(** A pure library call that may raise. *)
Definition lift {A : Type} (o : outcome A) : M A := fun w => (o, w).

(** [print(line)]. *)
Definition print (line : pystr) : M unit :=
  fun w => (Ok tt, mkWorld (stdout w ++ [line]) (agent_calls w) (agent_state w)).

(** [agent(prompt)]. *)
Definition call_agent (prompt : pyval) : M reply :=
  fun w =>
    let (r, s') := agent prompt (agent_state w) in
    (r, mkWorld (stdout w) (agent_calls w ++ [prompt]) s').

(** [obj.get(key, default)]: the method of dict; no other value of
    [pyval] has an attribute [get]. *)
Definition py_get (obj : pyval) (key : pystr) (default : pyval) : M pyval :=
  match obj with
  | PDict d => ret (dict_get d key default)
  | _ => raise (AttributeError obj (u "get"))
  end.

(** [s.lower()]: byte-wise on an ASCII string, the Unicode mapping otherwise. *)
Definition str_lower (s : pystr) : pystr :=
  if forallb is_ascii s then map ascii_tolower s else unicode_lower s.

(** [json.loads(s)]: only a [str] is decoded. *)
Definition json_loads (s : pyval) : outcome pyval :=
  match s with
  | PStr t => json_decode t
  | _ =>
      Raise (TypeError (u "the JSON object must be str, bytes or bytearray, not " ++
                        type_name s))
  end.

(** Runs [f] on each argument in turn and collects the results. *)
Fixpoint call_each {A B : Type} (f : A -> M B) (args : list A) : M (list B) :=
  match args with
  | [] => ret []
  | a :: rest =>
      x <- f a ;;
      xs <- call_each f rest ;;
      ret (x :: xs)
  end.

(** *** weather_mcp.py *)

Definition demo_data : list (pystr * pyval) :=
  [ (u "Beijing", PStr (u "Sunny, 25" ++ DEGREE_SIGN :: u "C"));
    (u "Shanghai", PStr (u "Cloudy, 23" ++ DEGREE_SIGN :: u "C"));
    (u "New York", PStr (u "Rainy, 18" ++ DEGREE_SIGN :: u "C")) ].

(** [async def get_weather]: a coroutine without an [await] in its body;
    the server that awaits it runs the body below to its [return]. *)
Definition get_weather (city : pystr) : M pyval :=
  let demo_data := PDict demo_data in
  py_get demo_data city (PStr (u "Weather data not available for " ++ city)).

(** *** lambda_function.py *)

Definition weather_data : list (pystr * pyval) :=
  [ (u "new york", PStr (u "72" ++ DEGREE_SIGN :: u "F, Partly Cloudy"));
    (u "london", PStr (u "64" ++ DEGREE_SIGN :: u "F, Rainy"));
    (u "tokyo", PStr (u "79" ++ DEGREE_SIGN :: u "F, Sunny")) ].

Definition weather_info (location : pystr) : M pyval :=
  let weather_data := PDict weather_data in
  py_get weather_data (str_lower location) (PStr (u "Weather information not available")).

Definition lambda_handler (event context : pyval) : M pyval :=
  try_except
    (raw <- py_get event (u "body") (PStr (u "{}")) ;;
     body <- lift (json_loads raw) ;;
     user_message <- py_get body (u "message") (PStr (u "")) ;;
     if negb (truthy user_message) then
       b <- lift (json_dumps (PDict [(u "error", PStr (u "No message provided"))])) ;;
       ret (PDict [(u "statusCode", PInt 400); (u "body", PStr b)])
     else
       response <- call_agent user_message ;;
       b <- lift (json_dumps (PDict [(u "message", message response)])) ;;
       ret (PDict [(u "statusCode", PInt 200); (u "body", PStr b)]))
    (fun e =>
       _ <- print (u "Error: " ++ exn_text e) ;;
       b <- lift (json_dumps (PDict [(u "error", PStr (u "Internal server error"))])) ;;
       ret (PDict [(u "statusCode", PInt 500); (u "body", PStr b)])).

(** The two [get] expressions of the handler, on dicts. *)
Definition event_body (ev : list (pystr * pyval)) : pyval :=
  dict_get ev (u "body") (PStr (u "{}")).

Definition message_of (fields : list (pystr * pyval)) : pyval :=
  dict_get fields (u "message") (PStr (u "")).

(** The state after the [except] branch printed its line for [e]. *)
Definition logged (e : exn) (w : world Mem) : world Mem :=
  mkWorld (stdout w ++ [u "Error: " ++ exn_text e]) (agent_calls w) (agent_state w).

(** The state after [agent(prompt)] left the agent in state [s']. *)
Definition called (prompt : pyval) (s' : Mem) (w : world Mem) : world Mem :=
  mkWorld (stdout w) (agent_calls w ++ [prompt]) s'.

(** *** Each tool, by name *)

Definition tool_table (t : lookup_tool) : list (pystr * pyval) :=
  match t with GetWeather => demo_data | WeatherInfo => weather_data end.

Definition tool_call (t : lookup_tool) : pystr -> M pyval :=
  match t with GetWeather => get_weather | WeatherInfo => weather_info end.

(** The key a tool looks up for an argument, and the default it passes. *)
Definition tool_key (t : lookup_tool) (s : pystr) : pystr :=
  match t with GetWeather => s | WeatherInfo => str_lower s end.

Definition tool_default (t : lookup_tool) (s : pystr) : pyval :=
  match t with
  | GetWeather => PStr (u "Weather data not available for " ++ s)
  | WeatherInfo => PStr (u "Weather information not available")
  end.

Definition tool_value (t : lookup_tool) (s : pystr) : pyval :=
  dict_get (tool_table t) (tool_key t s) (tool_default t s).

(* ================================================================== *)
(** ** Strings and dicts: basic facts *)

Lemma str_eqb_eq : forall a b : pystr, str_eqb a b = true <-> a = b.
Proof.
  induction a as [|x a IH]; destruct b as [|y b]; simpl; split;
    try discriminate; try reflexivity.
  - intros H. apply andb_true_iff in H as [Hx Ha].
    apply N.eqb_eq in Hx. apply IH in Ha. congruence.
  - intros H. injection H as -> ->. rewrite N.eqb_refl. simpl. now apply IH.
Qed.

Lemma str_eqb_neq : forall a b : pystr, str_eqb a b = false <-> a <> b.
Proof.
  intros a b. split.
  - intros H E. apply str_eqb_eq in E. congruence.
  - intros H. destruct (str_eqb a b) eqn:E; [|reflexivity].
    apply str_eqb_eq in E. contradiction.
Qed.

Lemma dict_lookup_None :
  forall (V : Type) (d : list (pystr * V)) (k : pystr),
    dict_lookup d k = None <-> ~ In k (dict_keys d).
Proof.
  induction d as [|[k' v] d IH]; intros k; simpl.
  - split; [intros _ []|reflexivity].
  - destruct (str_eqb k' k) eqn:E.
    + apply str_eqb_eq in E. split; [discriminate|]. intros H. exfalso. apply H. now left.
    + apply str_eqb_neq in E. rewrite IH. unfold dict_keys. split.
      * intros H [H1|H1]; [exact (E H1)|exact (H H1)].
      * intros H H1. apply H. right. exact H1.
Qed.

Lemma dict_lookup_In :
  forall (V : Type) (d : list (pystr * V)) (k : pystr) (v : V),
    NoDup (dict_keys d) -> In (k, v) d -> dict_lookup d k = Some v.
Proof.
  induction d as [|[k' v'] d IH]; intros k v Hnd Hin; simpl in *.
  - contradiction.
  - inversion Hnd as [|? ? Hnotin Hnd']; subst.
    destruct Hin as [Heq|Hin].
    + injection Heq as -> ->.
      assert (E : str_eqb k k = true) by now apply str_eqb_eq.
      now rewrite E.
    + destruct (str_eqb k' k) eqn:E.
      * apply str_eqb_eq in E. subst k'. exfalso. apply Hnotin.
        change (In (fst (k, v)) (map fst d)). now apply in_map.
      * now apply IH.
Qed.

Lemma starts_with_spec :
  forall p s : pystr, starts_with p s = true <-> exists post, s = p ++ post.
Proof.
  induction p as [|x p IH]; intros s; simpl.
  - split; [intros _; now exists s|reflexivity].
  - destruct s as [|y s].
    + split; [discriminate|intros [post H]; discriminate].
    + rewrite andb_true_iff, N.eqb_eq, IH. split.
      * intros [-> [post ->]]. now exists post.
      * intros [post H]. injection H as -> ->. split; [reflexivity|now exists post].
Qed.

Lemma contains_spec :
  forall needle hay : pystr, contains needle hay = true <-> substring needle hay.
Proof.
  intros needle. unfold substring.
  induction hay as [|c hay IH]; simpl.
  - rewrite orb_false_r, starts_with_spec. split.
    + intros [post H]. now exists [], post.
    + intros [pre [post H]]. destruct pre; [now exists post|discriminate].
  - rewrite orb_true_iff, IH, starts_with_spec. split.
    + intros [[post H]|[pre [post H]]].
      * now exists [], post.
      * exists (c :: pre), post. simpl. now rewrite H.
    + intros [pre [post H]]. destruct pre as [|c' pre].
      * left. now exists post.
      * right. injection H as _ H. now exists pre, post.
Qed.

Lemma substring_suffix : forall pre s : pystr, substring s (pre ++ s).
Proof. intros pre s. exists pre, []. now rewrite app_nil_r. Qed.

Lemma substring_app_l : forall needle a b : pystr, substring needle a -> substring needle (a ++ b).
Proof.
  intros needle a b [pre [post ->]]. exists pre, (post ++ b).
  now rewrite <- !app_assoc.
Qed.

Lemma is_ascii_tolower : forall c : N, is_ascii (ascii_tolower c) = is_ascii c.
Proof.
  intros c. unfold is_ascii, ascii_tolower.
  destruct ((65 <=? c) && (c <=? 90))%N eqn:E; [|reflexivity].
  apply andb_true_iff in E as [_ E]. apply N.leb_le in E.
  transitivity true; [|symmetry]; apply N.ltb_lt; lia.
Qed.

Lemma forallb_is_ascii_lower :
  forall s : pystr, forallb is_ascii (map ascii_tolower s) = forallb is_ascii s.
Proof.
  induction s as [|c s IH]; simpl; [reflexivity|].
  now rewrite is_ascii_tolower, IH.
Qed.

(** On a casing variant of an ASCII string, [lower] is the byte-wise map. *)
Lemma str_lower_casing_variant :
  forall (s : pystr) [k : pystr],
    forallb is_ascii k = true -> casing_variant s k ->
    str_lower s = map ascii_tolower k.
Proof.
  intros s k Hk Hv. unfold casing_variant in Hv.
  assert (Hs : forallb is_ascii s = true).
  { rewrite <- forallb_is_ascii_lower, Hv, forallb_is_ascii_lower. exact Hk. }
  unfold str_lower. rewrite Hs. exact Hv.
Qed.

Lemma demo_data_keys_NoDup : NoDup (dict_keys demo_data).
Proof.
  unfold dict_keys, demo_data. simpl.
  repeat constructor; simpl; intuition discriminate.
Qed.

Lemma weather_data_keys_NoDup : NoDup (dict_keys weather_data).
Proof.
  unfold dict_keys, weather_data. simpl.
  repeat constructor; simpl; intuition discriminate.
Qed.

(** The keys of [weather_data] are already in lower case. *)
Lemma weather_data_keys_lower :
  forall k : pystr, In k (dict_keys weather_data) -> str_lower k = k.
Proof.
  intros k H. unfold dict_keys, weather_data in H. simpl in H.
  destruct H as [<-|[<-|[<-|[]]]]; reflexivity.
Qed.

(** Every value stored in a table is a [str]. *)
Lemma tool_table_values :
  forall (t : lookup_tool) (k : pystr) (v : pyval),
    dict_lookup (tool_table t) k = Some v -> exists r, v = PStr r.
Proof.
  intros t k v. destruct t; unfold tool_table, demo_data, weather_data; simpl;
    repeat match goal with
           | |- context [if ?c then _ else _] => destruct c
           end;
    intros H; try discriminate; injection H as <-; eexists; reflexivity.
Qed.

(** Each tool returns its value and leaves the process as it was. *)
Lemma tool_call_value :
  forall (t : lookup_tool) (s : pystr) (w : world Mem),
    tool_call t s w = (Ok (tool_value t s), w).
Proof. intros [] s w; reflexivity. Qed.

Lemma tool_value_str :
  forall (t : lookup_tool) (s : pystr), exists r, tool_value t s = PStr r.
Proof.
  intros t s. unfold tool_value, dict_get.
  destruct (dict_lookup (tool_table t) (tool_key t s)) as [v|] eqn:E.
  - exact (tool_table_values t _ _ E).
  - destruct t; eexists; reflexivity.
Qed.

Lemma tool_value_unknown :
  forall (t : lookup_tool) (s : pystr),
    ~ In (tool_key t s) (dict_keys (tool_table t)) ->
    tool_value t s = tool_default t s.
Proof.
  intros t s H. apply dict_lookup_None in H.
  unfold tool_value, dict_get. now rewrite H.
Qed.

Lemma tool_value_known :
  forall (t : lookup_tool) (s : pystr) (v : pyval),
    In (tool_key t s, v) (tool_table t) -> tool_value t s = v.
Proof.
  intros t s v H. unfold tool_value, dict_get.
  rewrite (@dict_lookup_In _ (tool_table t) (tool_key t s) v); [reflexivity| |exact H].
  destruct t; [apply demo_data_keys_NoDup|apply weather_data_keys_NoDup].
Qed.

Lemma call_each_pure :
  forall [A B : Type] (f : A -> M B) (g : A -> B),
    (forall a w, f a w = (Ok (g a), w)) ->
    forall (args : list A) (w : world Mem),
      call_each f args w = (Ok (map g args), w).
Proof.
  intros A B f g Hf. induction args as [|a rest IH]; intros w; simpl.
  - reflexivity.
  - unfold bind. rewrite Hf, IH. reflexivity.
Qed.

Lemma map_repeat :
  forall (A B : Type) (g : A -> B) (a : A) (n : nat),
    map g (repeat a n) = repeat (g a) n.
Proof. intros A B g a n. induction n; simpl; congruence. Qed.

(* ================================================================== *)
(** ** The lookup tools *)

(** C3.  For every key present in its fixed table, each lookup tool
    ([get_weather], [weather_info]) returns exactly the stored string, and
    nothing else happens. *)
Theorem known_key_returns_stored_value :
  forall (t : lookup_tool) (k : pystr) (v : pyval) (w : world Mem),
    In (k, v) (tool_table t) ->
    tool_call t k w = (Ok v, w).
Proof.
  intros t k v w Hin. rewrite tool_call_value. f_equal. f_equal.
  apply tool_value_known. destruct t; simpl tool_key.
  - exact Hin.
  - rewrite weather_data_keys_lower; [exact Hin|].
    unfold dict_keys. change k with (fst (k, v)). now apply in_map.
Qed.

(** C6.  Each lookup tool is total over strings: for every string argument
    the call returns (it does not raise), what it returns is a string, and
    the state of the process is the one before the call. *)
Theorem lookup_tool_total :
  forall (t : lookup_tool) (s : pystr) (w : world Mem),
    exists r : pystr, tool_call t s w = (Ok (PStr r), w).
Proof.
  intros t s w. destruct (tool_value_str t s) as [r Hr].
  exists r. now rewrite tool_call_value, Hr.
Qed.

(** C1, as the code has it.  When the key a tool looks up (the argument
    for [get_weather], the lower-cased argument for [weather_info]) is not
    in its table, the tool returns, without raising, a fallback string that
    says "not available": [get_weather] appends the argument to it,
    [weather_info] returns one fixed text. *)
Theorem fallback_on_unknown_key :
  forall (t : lookup_tool) (s : pystr) (w : world Mem),
    ~ In (tool_key t s) (dict_keys (tool_table t)) ->
    exists r : pystr,
      tool_call t s w = (Ok (PStr r), w) /\
      substring (u "not available") r /\
      match t with
      | GetWeather => r = u "Weather data not available for " ++ s /\ substring s r
      | WeatherInfo => r = u "Weather information not available"
      end.
Proof.
  intros t s w Hnot. rewrite tool_call_value, (tool_value_unknown t s Hnot).
  destruct t.
  - exists (u "Weather data not available for " ++ s).
    split; [reflexivity|]. split.
    + apply substring_app_l. apply contains_spec. reflexivity.
    + split; [reflexivity|]. apply substring_suffix.
  - exists (u "Weather information not available").
    split; [reflexivity|]. split; [|reflexivity].
    apply contains_spec. reflexivity.
Qed.

(** C7.  Let [s] differ from [k] at most in the case of its letters.  If
    [k] is a key of [get_weather]'s table and [s] is not [k] itself,
    [get_weather s] is the fallback string (the match is case-sensitive);
    if [k] is a key of [weather_info]'s table, [weather_info s] is the value
    stored under [k] (the argument is lower-cased first). *)
Theorem key_matching_and_case :
  forall (s k : pystr) (w : world Mem),
    casing_variant s k ->
    (In k (dict_keys demo_data) -> s <> k ->
       get_weather s w = (Ok (PStr (u "Weather data not available for " ++ s)), w))
    /\
    (forall v : pyval, In (k, v) weather_data -> weather_info s w = (Ok v, w)).
Proof.
  intros s k w Hv. split.
  - intros Hk Hne.
    change (get_weather s w) with (tool_call GetWeather s w).
    rewrite tool_call_value, tool_value_unknown; [reflexivity|].
    simpl tool_key. simpl tool_table. intros Hs.
    unfold dict_keys, demo_data in Hk, Hs. simpl in Hk, Hs.
    destruct Hk as [<-|[<-|[<-|[]]]]; destruct Hs as [<-|[<-|[<-|[]]]];
      first [now apply Hne | vm_compute in Hv; discriminate].
  - intros v Hin.
    change (weather_info s w) with (tool_call WeatherInfo s w).
    rewrite tool_call_value. f_equal. f_equal.
    apply tool_value_known. simpl tool_key. simpl tool_table.
    unfold weather_data in Hin. simpl in Hin.
    destruct Hin as [H|[H|[H|[]]]]; injection H as <- <-;
      rewrite (fun Ha => str_lower_casing_variant s Ha Hv) by reflexivity;
      vm_compute; auto.
Qed.

(** C8.  Lookup is deterministic and repeatable.  Whatever calls were made
    before (on any arguments), each of [n] further calls of a tool on [s]
    returns the value [r] that a first call on [s] returns, and the state of
    the process after all these calls is the one before them. *)
Theorem lookup_is_repeatable :
  forall (t : lookup_tool) (before : list pystr) (s : pystr) (n : nat) (w : world Mem),
    exists (r : pyval) (earlier : list pyval),
      tool_call t s w = (Ok r, w) /\
      call_each (tool_call t) (before ++ repeat s n) w = (Ok (earlier ++ repeat r n), w).
Proof.
  intros t before s n w.
  exists (tool_value t s), (map (tool_value t) before). split.
  - apply tool_call_value.
  - rewrite (call_each_pure (tool_call t) (tool_value t) (tool_call_value t)).
    now rewrite map_app, map_repeat.
Qed.

(* ================================================================== *)
(** ** The Lambda handler *)

Lemma json_dumps_no_message :
  json_dumps (PDict [(u "error", PStr (u "No message provided"))]) =
  Ok (error_body (u "No message provided")).
Proof. reflexivity. Qed.

Lemma json_dumps_internal_error :
  json_dumps (PDict [(u "error", PStr (u "Internal server error"))]) =
  Ok (error_body (u "Internal server error")).
Proof. reflexivity. Qed.

Lemma json_dumps_message :
  forall m : pyval,
    json_dumps (PDict [(u "message", m)]) =
    match json_dumps m with
    | Raise e => Raise e
    | Ok text => Ok (u "{" ++ quoted (u "message") ++ u ": " ++ text ++ u "}")
    end.
Proof. intros m. simpl. destruct (json_dumps m); reflexivity. Qed.

(** The paths through [lambda_handler], one lemma each. *)

Ltac run_handler :=
  unfold event_body, message_of in *;
  cbv beta iota zeta
      delta [lambda_handler try_except bind lift ret raise print call_agent py_get].

Ltac step H := rewrite H; cbv beta iota zeta delta [negb].

Lemma handler_event_not_dict :
  forall (event context : pyval) (w : world Mem),
    (forall ev, event <> PDict ev) ->
    lambda_handler event context w =
    (Ok (http_response 500 (error_body (u "Internal server error"))),
     logged (AttributeError event (u "get")) w).
Proof.
  intros event context w H. run_handler.
  destruct event; try reflexivity. now destruct (H d).
Qed.

Lemma handler_loads_raises :
  forall (ev : list (pystr * pyval)) (context : pyval) (w : world Mem) (e : exn),
    json_loads (event_body ev) = Raise e ->
    lambda_handler (PDict ev) context w =
    (Ok (http_response 500 (error_body (u "Internal server error"))), logged e w).
Proof. intros ev context w e H. run_handler. now rewrite H. Qed.

Lemma handler_body_not_dict :
  forall (ev : list (pystr * pyval)) (context body : pyval) (w : world Mem),
    json_loads (event_body ev) = Ok body ->
    (forall fields, body <> PDict fields) ->
    lambda_handler (PDict ev) context w =
    (Ok (http_response 500 (error_body (u "Internal server error"))),
     logged (AttributeError body (u "get")) w).
Proof.
  intros ev context body w H Hnd. run_handler. rewrite H.
  destruct body; try reflexivity. now destruct (Hnd d).
Qed.

Lemma handler_no_message :
  forall (ev fields : list (pystr * pyval)) (context : pyval) (w : world Mem),
    json_loads (event_body ev) = Ok (PDict fields) ->
    truthy (message_of fields) = false ->
    lambda_handler (PDict ev) context w =
    (Ok (http_response 400 (error_body (u "No message provided"))), w).
Proof.
  intros ev fields context w H Hm. run_handler.
  step H. step Hm. reflexivity.
Qed.

Lemma handler_agent_raises :
  forall (ev fields : list (pystr * pyval)) (context : pyval) (w : world Mem)
         (e : exn) (s' : Mem),
    json_loads (event_body ev) = Ok (PDict fields) ->
    truthy (message_of fields) = true ->
    agent (message_of fields) (agent_state w) = (Raise e, s') ->
    lambda_handler (PDict ev) context w =
    (Ok (http_response 500 (error_body (u "Internal server error"))),
     logged e (called (message_of fields) s' w)).
Proof.
  intros ev fields context w e s' H Hm Ha. run_handler.
  step H. step Hm. step Ha. reflexivity.
Qed.

Lemma handler_agent_replies :
  forall (ev fields : list (pystr * pyval)) (context : pyval) (w : world Mem)
         (r : reply) (s' : Mem),
    json_loads (event_body ev) = Ok (PDict fields) ->
    truthy (message_of fields) = true ->
    agent (message_of fields) (agent_state w) = (Ok r, s') ->
    lambda_handler (PDict ev) context w =
    match json_dumps (PDict [(u "message", message r)]) with
    | Ok body => (Ok (http_response 200 body), called (message_of fields) s' w)
    | Raise e =>
        (Ok (http_response 500 (error_body (u "Internal server error"))),
         logged e (called (message_of fields) s' w))
    end.
Proof.
  intros ev fields context w r s' H Hm Ha. run_handler.
  step H. step Hm. step Ha.
  now destruct (json_dumps (PDict [(u "message", message r)])).
Qed.

(** C2.  When the decoded body is an object that has no ["message"] field,
    or whose ["message"] is the empty string, [lambda_handler] returns
    status 400 with body [{"error": "No message provided"}]; the state of
    the process is untouched: the agent was not called and nothing was
    printed. *)
Theorem missing_message_is_rejected :
  forall (ev fields : list (pystr * pyval)) (context : pyval) (w : world Mem),
    json_loads (event_body ev) = Ok (PDict fields) ->
    dict_lookup fields (u "message") = None \/
    dict_lookup fields (u "message") = Some (PStr (u "")) ->
    lambda_handler (PDict ev) context w =
    (Ok (http_response 400 (error_body (u "No message provided"))), w).
Proof.
  intros ev fields context w Hbody Hmsg.
  apply handler_no_message with (fields := fields); [exact Hbody|].
  unfold message_of, dict_get.
  destruct Hmsg as [Hnone|Hempty].
  - rewrite Hnone. reflexivity.
  - rewrite Hempty. reflexivity.
Qed.

(** C4.  When the body decodes to [{"message": "hello"}] and the agent
    answers that prompt with a reply whose message is the text "hi there",
    [lambda_handler] returns status 200 with body [{"message": "hi there"}]
    (and the agent was called once, on "hello"). *)
Theorem hello_gets_the_reply :
  forall (ev : list (pystr * pyval)) (context : pyval) (w : world Mem) (s' : Mem),
    json_loads (event_body ev) = Ok (PDict [(u "message", PStr (u "hello"))]) ->
    agent (PStr (u "hello")) (agent_state w) = (Ok (mkReply (PStr (u "hi there"))), s') ->
    lambda_handler (PDict ev) context w =
    (Ok (http_response 200 (message_body (u "hi there"))),
     called (PStr (u "hello")) s' w).
Proof.
  intros ev context w s' Hbody Hagent.
  rewrite (handler_agent_replies ev [(u "message", PStr (u "hello"))] context w
             (mkReply (PStr (u "hi there"))) s' Hbody eq_refl Hagent).
  reflexivity.
Qed.

(** C5.  When the body carries a message that is not empty (a true value)
    and the agent raises [e] on it, [lambda_handler] returns status 500 with
    the fixed body [{"error": "Internal server error"}]: the response is the
    same whatever [e] is, and the text of [e] goes to the printed line only. *)
Theorem agent_failure_is_internal_error :
  forall (ev fields : list (pystr * pyval)) (msg context : pyval) (w : world Mem)
         (e : exn) (s' : Mem),
    json_loads (event_body ev) = Ok (PDict fields) ->
    dict_lookup fields (u "message") = Some msg ->
    truthy msg = true ->
    agent msg (agent_state w) = (Raise e, s') ->
    lambda_handler (PDict ev) context w =
    (Ok (http_response 500 (error_body (u "Internal server error"))),
     mkWorld (stdout w ++ [u "Error: " ++ exn_text e]) (agent_calls w ++ [msg]) s').
Proof.
  intros ev fields msg context w e s' Hbody Hmsg Htrue Hagent.
  assert (Hm : message_of fields = msg).
  { unfold message_of, dict_get. now rewrite Hmsg. }
  rewrite <- Hm in Htrue, Hagent.
  rewrite (handler_agent_raises ev fields context w e s' Hbody Htrue Hagent).
  rewrite Hm. reflexivity.
Qed.

(** C9.  When the event has a ['body'] field that [json.loads] rejects,
    [lambda_handler] returns status 500 with body
    [{"error": "Internal server error"}], not 400: the error raised by the
    decoder is caught by the [except] branch (which prints it); the agent is
    not called. *)
Theorem invalid_body_is_internal_error :
  forall (ev : list (pystr * pyval)) (raw context : pyval) (w : world Mem) (e : exn),
    dict_lookup ev (u "body") = Some raw ->
    json_loads raw = Raise e ->
    lambda_handler (PDict ev) context w =
    (Ok (http_response 500 (error_body (u "Internal server error"))),
     mkWorld (stdout w ++ [u "Error: " ++ exn_text e]) (agent_calls w) (agent_state w)).
Proof.
  intros ev raw context w e Hraw Hloads.
  apply handler_loads_raises.
  unfold event_body, dict_get. now rewrite Hraw.
Qed.

(** C10.  For every event, [lambda_handler] returns (it does not raise) a
    dict with exactly the keys ['statusCode'] and ['body'], in which the
    status is 200, 400 or 500 and the body is what [json.dumps] wrote for a
    dict.  Moreover, [json.loads('{}')] being the empty dict, an event
    without a ['body'] field gets the 400 response of a missing message. *)
Theorem lambda_handler_always_responds :
  forall (event context : pyval) (w : world Mem),
    (exists (status : Z) (body : pystr) (w' : world Mem),
        lambda_handler event context w =
        (Ok (PDict [(u "statusCode", PInt status); (u "body", PStr body)]), w') /\
        (status = 200 \/ status = 400 \/ status = 500)%Z /\
        exists d : list (pystr * pyval), json_dumps (PDict d) = Ok body)
    /\
    (json_decode (u "{}") = Ok (PDict []) ->
     forall ev : list (pystr * pyval),
       event = PDict ev ->
       dict_lookup ev (u "body") = None ->
       lambda_handler event context w =
       (Ok (http_response 400 (error_body (u "No message provided"))), w)).
Proof.
  intros event context w. split.
  - assert (H500 : forall w' : world Mem,
               exists (status : Z) (body : pystr) (w'' : world Mem),
                 (Ok (http_response 500 (error_body (u "Internal server error"))), w') =
                 (Ok (PDict [(u "statusCode", PInt status); (u "body", PStr body)]), w'') /\
                 (status = 200 \/ status = 400 \/ status = 500)%Z /\
                 exists d : list (pystr * pyval), json_dumps (PDict d) = Ok body).
    { intros w'. exists 500%Z, (error_body (u "Internal server error")), w'.
      split; [reflexivity|]. split; [right; right; reflexivity|].
      eexists. exact json_dumps_internal_error. }
    destruct event as [| | | | |?|ev|?];
      try (rewrite handler_event_not_dict by discriminate; apply H500).
    destruct (json_loads (event_body ev)) as [body|e] eqn:Hloads;
      [|rewrite (handler_loads_raises ev context w e Hloads); apply H500].
    destruct body as [| | | | |?|fields|?];
      try (rewrite (handler_body_not_dict ev context _ w Hloads) by discriminate;
           apply H500).
    destruct (truthy (message_of fields)) eqn:Htrue.
    + destruct (agent (message_of fields) (agent_state w)) as [[r|e] s'] eqn:Hagent.
      * rewrite (handler_agent_replies ev fields context w r s' Hloads Htrue Hagent).
        destruct (json_dumps (PDict [(u "message", message r)])) as [body|e] eqn:Hd;
          [|apply H500].
        exists 200%Z, body, (called (message_of fields) s' w).
        split; [reflexivity|]. split; [left; reflexivity|]. eexists. exact Hd.
      * rewrite (handler_agent_raises ev fields context w e s' Hloads Htrue Hagent). apply H500.
    + rewrite (handler_no_message ev fields context w Hloads Htrue).
      exists 400%Z, (error_body (u "No message provided")), w.
      split; [reflexivity|]. split; [right; left; reflexivity|].
      eexists. exact json_dumps_no_message.
  - intros Hempty ev -> Hnone.
    apply handler_no_message with (fields := []).
    + unfold event_body, dict_get. rewrite Hnone. exact Hempty.
    + reflexivity.
Qed.

(* ================================================================== *)
(** ** More on the encoder *)

(** Induction on values, through the items of lists and dicts. *)
Lemma pyval_induction :
  forall P : pyval -> Prop,
    P PNone ->
    (forall b, P (PBool b)) ->
    (forall z, P (PInt z)) ->
    (forall nz t, P (PFloat nz t)) ->
    (forall s, P (PStr s)) ->
    (forall l, Forall P l -> P (PList l)) ->
    (forall d, Forall (fun kv => P (snd kv)) d -> P (PDict d)) ->
    (forall cls, P (PObj cls)) ->
    forall v, P v.
Proof.
  intros P HN HB HI HF HS HL HD HO.
  fix IH 1. intros [| b | z | nz t | s | l | d | cls].
  - exact HN.
  - apply HB.
  - apply HI.
  - apply HF.
  - apply HS.
  - apply HL. induction l as [|x l IHl]; constructor; [apply IH|exact IHl].
  - apply HD. induction d as [|[k x] d IHd]; constructor; [apply IH|exact IHd].
  - apply HO.
Qed.

Lemma json_dumps_list :
  forall l : list pyval,
    json_dumps (PList l) =
    match dumps_items l with
    | Raise e => Raise e
    | Ok parts => Ok (u "[" ++ join (u ", ") parts ++ u "]")
    end.
Proof. reflexivity. Qed.

Lemma json_dumps_dict :
  forall d : list (pystr * pyval),
    json_dumps (PDict d) =
    match dumps_fields d with
    | Raise e => Raise e
    | Ok parts => Ok (u "{" ++ join (u ", ") parts ++ u "}")
    end.
Proof. reflexivity. Qed.

Lemma json_dumps_by_safety : forall v : pyval, dumps_as_safe v.
Proof.
  induction v as [| b | z | nz t | s | l IHl | d IHd | cls] using pyval_induction;
    unfold dumps_as_safe.
  - simpl. eexists. reflexivity.
  - destruct b; simpl; eexists; reflexivity.
  - simpl. eexists. reflexivity.
  - simpl. eexists. reflexivity.
  - simpl. eexists. reflexivity.
  - rewrite json_dumps_list.
    assert (H : if json_safe (PList l)
                then exists parts, dumps_items l = Ok parts
                else exists e, dumps_items l = Raise e /\ exn_class e = u "TypeError").
    { induction IHl as [|x r Hx Hr IH]; [simpl; eexists; reflexivity|].
      change (json_safe (PList (x :: r))) with (json_safe x && json_safe (PList r)).
      change (dumps_items (x :: r)) with
        (match json_dumps x with
         | Raise e => Raise e
         | Ok sx => match dumps_items r with
                    | Raise e => Raise e
                    | Ok sr => Ok (sx :: sr)
                    end
         end).
      unfold dumps_as_safe in Hx.
      destruct (json_safe x); cbn [andb].
      - destruct Hx as [sx ->].
        destruct (json_safe (PList r)).
        + destruct IH as [sr ->]. eexists. reflexivity.
        + destruct IH as [e [-> He]]. exists e. split; [reflexivity|exact He].
      - destruct Hx as [e [-> He]]. exists e. split; [reflexivity|exact He]. }
    destruct (json_safe (PList l)).
    + destruct H as [parts ->]. eexists. reflexivity.
    + destruct H as [e [-> He]]. exists e. split; [reflexivity|exact He].
  - rewrite json_dumps_dict.
    assert (H : if json_safe (PDict d)
                then exists parts, dumps_fields d = Ok parts
                else exists e, dumps_fields d = Raise e /\ exn_class e = u "TypeError").
    { induction IHd as [|[k x] r Hx Hr IH]; [simpl; eexists; reflexivity|].
      change (json_safe (PDict ((k, x) :: r))) with (json_safe x && json_safe (PDict r)).
      change (dumps_fields ((k, x) :: r)) with
        (match json_dumps x with
         | Raise e => Raise e
         | Ok sx => match dumps_fields r with
                    | Raise e => Raise e
                    | Ok sr => Ok ((encode_basestring_ascii k ++ u ": " ++ sx) :: sr)
                    end
         end).
      cbn [snd] in Hx. unfold dumps_as_safe in Hx.
      destruct (json_safe x); cbn [andb].
      - destruct Hx as [sx ->].
        destruct (json_safe (PDict r)).
        + destruct IH as [sr ->]. eexists. reflexivity.
        + destruct IH as [e [-> He]]. exists e. split; [reflexivity|exact He].
      - destruct Hx as [e [-> He]]. exists e. split; [reflexivity|exact He]. }
    destruct (json_safe (PDict d)).
    + destruct H as [parts ->]. eexists. reflexivity.
    + destruct H as [e [-> He]]. exists e. split; [reflexivity|exact He].
  - simpl. eexists. split; reflexivity.
Qed.

Lemma land_15_lt_16 : forall n : N, (N.land n 15 < 16)%N.
Proof.
  intros n. change 15%N with (N.ones 4). rewrite N.land_ones.
  apply N.mod_lt. discriminate.
Qed.

Lemma hex_digit_printable :
  forall n : N, (n < 16)%N -> printable_ascii (hex_digit n) = true.
Proof.
  intros n Hn. unfold printable_ascii, hex_digit.
  destruct (n <? 10)%N eqn:E.
  - apply N.ltb_lt in E. apply andb_true_iff. split; apply N.leb_le; lia.
  - apply N.ltb_ge in E. apply andb_true_iff. split; apply N.leb_le; lia.
Qed.

Lemma escape_u_printable :
  forall n : N, forallb printable_ascii (escape_u n) = true.
Proof.
  intros n. unfold escape_u. rewrite forallb_app. simpl.
  now rewrite !hex_digit_printable by apply land_15_lt_16.
Qed.

Lemma escape_char_printable :
  forall c : N, forallb printable_ascii (escape_char c) = true.
Proof.
  intros c. unfold escape_char.
  repeat match goal with
         | |- context [if (c =? ?k)%N then _ else _] => destruct (c =? k)%N; [reflexivity|]
         end.
  destruct ((32 <=? c) && (c <=? 126))%N eqn:E.
  - simpl. unfold printable_ascii. now rewrite E.
  - destruct (c <? 65536)%N.
    + apply escape_u_printable.
    + cbv zeta. rewrite forallb_app, !escape_u_printable. reflexivity.
Qed.

Lemma encode_basestring_ascii_printable :
  forall s : pystr, forallb printable_ascii (encode_basestring_ascii s) = true.
Proof.
  intros s. unfold encode_basestring_ascii.
  rewrite !forallb_app. simpl.
  induction s as [|c s IH]; simpl; [reflexivity|].
  rewrite forallb_app, escape_char_printable. exact IH.
Qed.

(* ================================================================== *)
(** ** More on the Lambda handler *)

Local Notation "'bad_request'" :=
  (http_response 400 (error_body (u "No message provided"))) (at level 0).
Local Notation "'server_error'" :=
  (http_response 500 (error_body (u "Internal server error"))) (at level 0).

(** Every run of the handler is one of four: rejected, failed before the
    agent, answered, failed at or after the agent. *)
Lemma handler_outcome :
  forall (event context : pyval) (w : world Mem),
    lambda_handler event context w = (Ok bad_request, w)
    \/ (exists e, lambda_handler event context w = (Ok server_error, logged e w))
    \/ (exists (m : pyval) (s' : Mem),
           truthy m = true /\
           ((exists body,
                lambda_handler event context w =
                (Ok (http_response 200 body), called m s' w))
            \/ (exists e,
                   lambda_handler event context w =
                   (Ok server_error, logged e (called m s' w))))).
Proof.
  intros event context w.
  destruct event as [| | | | |?|ev|?];
    try (right; left; eexists; apply handler_event_not_dict; discriminate).
  destruct (json_loads (event_body ev)) as [body|e] eqn:Hloads;
    [|right; left; exists e; now apply handler_loads_raises].
  destruct body as [| | | | |?|fields|?];
    try (right; left; eexists; apply (handler_body_not_dict ev context _ w Hloads);
         discriminate).
  destruct (truthy (message_of fields)) eqn:Htrue;
    [|left; now apply handler_no_message with (fields := fields)].
  right. right. 
  destruct (agent (message_of fields) (agent_state w)) as [[r|e] s'] eqn:Hagent;
    exists (message_of fields), s'; (split; [exact Htrue|]).
  - rewrite (handler_agent_replies ev fields context w r s' Hloads Htrue Hagent).
    destruct (json_dumps (PDict [(u "message", message r)])) as [body|e].
    + left. now exists body.
    + right. now exists e.
  - right. exists e. now apply handler_agent_raises.
Qed.

Lemma app_one_not_nil :
  forall (A : Type) (l : list A) (x : A), l ++ [x] <> l.
Proof.
  intros A l x H. apply (f_equal (@List.length A)) in H.
  rewrite length_app in H. simpl in H. lia.
Qed.

Lemma count_status_cons :
  forall (status k : Z) (body : pystr) (rest : list pyval),
    count_status status (http_response k body :: rest) =
    ((if (k =? status)%Z then 1 else 0) + count_status status rest)%nat.
Proof.
  intros status k body rest. unfold count_status.
  change (filter _ (http_response k body :: rest))
    with (if (k =? status)%Z
          then http_response k body ::
               filter (fun r => match status_code r with
                                | Some z => (z =? status)%Z
                                | None => false
                                end) rest
          else filter (fun r => match status_code r with
                                | Some z => (z =? status)%Z
                                | None => false
                                end) rest).
  now destruct (k =? status)%Z.
Qed.

(** X1.  A payload of the wrong shape is an internal error, not a bad
    request: when the event is not a dict, or its body decodes to something
    that is not an object (a list, a string, a number, [null]), the [get]
    on it raises [AttributeError], and the handler prints it and returns
    status 500 without calling the agent. *)
Theorem non_object_payload_is_internal_error :
  forall (event context : pyval) (w : world Mem),
    (forall ev, event <> PDict ev) \/
    (exists ev body,
        event = PDict ev /\
        json_loads (event_body ev) = Ok body /\
        forall fields, body <> PDict fields) ->
    exists culprit : pyval,
      (forall d, culprit <> PDict d) /\
      lambda_handler event context w =
      (Ok server_error,
       mkWorld (stdout w ++ [u "Error: '" ++ type_name culprit ++
                             u "' object has no attribute 'get'"])
               (agent_calls w) (agent_state w)).
Proof.
  intros event context w [Hev|[ev [body [-> [Hloads Hbody]]]]].
  - exists event. split; [exact Hev|]. now apply handler_event_not_dict.
  - exists body. split; [exact Hbody|].
    now apply (handler_body_not_dict ev context body w Hloads).
Qed.


(** X3.  The handler does not look at the type of the message: any value
    that is true in Python's sense (a non-empty string, also of blanks; a
    number; a list) is passed to the agent as it is, exactly once, whether
    the agent then answers or raises, and the agent keeps the state the
    call left it in. *)
Theorem true_message_reaches_agent :
  forall (ev fields : list (pystr * pyval)) (msg context : pyval) (w : world Mem),
    json_loads (event_body ev) = Ok (PDict fields) ->
    dict_lookup fields (u "message") = Some msg ->
    truthy msg = true ->
    agent_calls (snd (lambda_handler (PDict ev) context w)) = agent_calls w ++ [msg] /\
    agent_state (snd (lambda_handler (PDict ev) context w)) =
    snd (agent msg (agent_state w)).
Proof.
  intros ev fields msg context w Hloads Hmsg Htrue.
  assert (Hm : message_of fields = msg).
  { unfold message_of, dict_get. now rewrite Hmsg. }
  rewrite <- Hm in *.
  destruct (agent (message_of fields) (agent_state w)) as [[r|e] s'] eqn:Hagent.
  - rewrite (handler_agent_replies ev fields context w r s' Hloads Htrue Hagent).
    destruct (json_dumps (PDict [(u "message", message r)])); split; reflexivity.
  - rewrite (handler_agent_raises ev fields context w e s' Hloads Htrue Hagent).
    split; reflexivity.
Qed.

(** X4.  What a run of the handler does to the process goes with the
    status it returns: with 400 nothing changed; with 200 nothing was
    printed and the agent was called once; a line "Error: ..." was printed
    exactly when the status is 500; and in no case was the agent called more
    than once. *)
Theorem handler_effects_match_status :
  forall (event context : pyval) (w : world Mem),
    exists (status : Z) (body : pystr) (w' : world Mem),
      lambda_handler event context w = (Ok (http_response status body), w') /\
      (status = 400%Z -> w' = w) /\
      (status = 200%Z ->
         stdout w' = stdout w /\
         exists m, truthy m = true /\ agent_calls w' = agent_calls w ++ [m]) /\
      (status = 500%Z <->
         exists e, stdout w' = stdout w ++ [u "Error: " ++ exn_text e]) /\
      (agent_calls w' = agent_calls w \/
       exists m, truthy m = true /\ agent_calls w' = agent_calls w ++ [m]).
Proof.
  intros event context w.
  destruct (handler_outcome event context w)
    as [H|[[e H]|[m [s' [Hm [[body H]|[e H]]]]]]]; rewrite H.
  - exists 400%Z, (error_body (u "No message provided")), w.
    split; [reflexivity|]. split; [reflexivity|]. split; [discriminate|].
    split; [|now left].
    split; [discriminate|]. intros [e He]. symmetry in He.
    now apply app_one_not_nil in He.
  - exists 500%Z, (error_body (u "Internal server error")), (logged e w).
    split; [reflexivity|]. split; [discriminate|]. split; [discriminate|].
    split; [|now left].
    split; [intros _; now exists e|reflexivity].
  - exists 200%Z, body, (called m s' w).
    split; [reflexivity|]. split; [discriminate|].
    split; [intros _; split; [reflexivity|now exists m]|].
    split; [|right; now exists m].
    split; [discriminate|]. intros [e He]. symmetry in He.
    now apply app_one_not_nil in He.
  - exists 500%Z, (error_body (u "Internal server error")), (logged e (called m s' w)).
    split; [reflexivity|]. split; [discriminate|]. split; [discriminate|].
    split; [|right; now exists m].
    split; [intros _; now exists e|reflexivity].
Qed.

(** One run, as what it adds to the printed lines and to the calls. *)
Lemma handler_step :
  forall (event context : pyval) (w : world Mem),
    exists (status : Z) (body : pystr) (printed : list pystr) (prompts : list pyval)
           (s' : Mem),
      lambda_handler event context w =
      (Ok (http_response status body),
       mkWorld (stdout w ++ printed) (agent_calls w ++ prompts) s') /\
      Forall (fun m => truthy m = true) prompts /\
      ((status = 400%Z /\ printed = [] /\ prompts = []) \/
       (status = 200%Z /\ printed = [] /\ List.length prompts = 1%nat) \/
       (status = 500%Z /\ List.length printed = 1%nat /\
        (List.length prompts <= 1)%nat)).
Proof.
  intros event context w.
  destruct (handler_outcome event context w)
    as [H|[[e H]|[m [s' [Hm [[body H]|[e H]]]]]]]; rewrite H.
  - exists 400%Z, (error_body (u "No message provided")), [], [], (agent_state w).
    rewrite !app_nil_r. destruct w. split; [reflexivity|].
    split; [constructor|]. left. auto.
  - exists 500%Z, (error_body (u "Internal server error")),
      [u "Error: " ++ exn_text e], [], (agent_state w).
    rewrite app_nil_r. split; [reflexivity|]. split; [constructor|].
    right. right. simpl. auto.
  - exists 200%Z, body, [], [m], s'.
    rewrite app_nil_r. split; [reflexivity|].
    split; [repeat constructor; exact Hm|]. right. left. auto.
  - exists 500%Z, (error_body (u "Internal server error")),
      [u "Error: " ++ exn_text e], [m], s'.
    split; [reflexivity|]. split; [repeat constructor; exact Hm|].
    right. right. simpl. auto.
Qed.

(** X5.  The agent and the output are shared by the invocations of one
    process.  A sequence of events, handled one after the other, gives one
    response per event; the printed lines and the agent's calls only grow;
    there is one printed line per 500 response; every prompt the agent got
    is true in Python's sense; and the agent got one prompt for each 200
    response and none for a 400 response. *)
Theorem handler_batch_accounting :
  forall (events : list pyval) (context : pyval) (w : world Mem),
    exists (responses : list pyval) (printed : list pystr) (prompts : list pyval)
           (s' : Mem),
      call_each (fun event => lambda_handler event context) events w =
      (Ok responses, mkWorld (stdout w ++ printed) (agent_calls w ++ prompts) s') /\
      List.length responses = List.length events /\
      List.length printed = count_status 500 responses /\
      Forall (fun m => truthy m = true) prompts /\
      (count_status 200 responses <= List.length prompts)%nat /\
      (List.length prompts + count_status 400 responses <= List.length events)%nat.
Proof.
  induction events as [|event rest IH]; intros context w.
  - exists [], [], [], (agent_state w). simpl. unfold ret.
    rewrite !app_nil_r. destruct w. repeat split; auto.
  - destruct (handler_step event context w)
      as [status [body [p1 [q1 [s1 [Hrun [Hq1 Hkind]]]]]]].
    destruct (IH context (mkWorld (stdout w ++ p1) (agent_calls w ++ q1) s1))
      as [rs [p2 [q2 [s2 [Hrest [Hlen [Hprinted [Hq2 [H200 H400]]]]]]]]].
    exists (http_response status body :: rs), (p1 ++ p2), (q1 ++ q2), s2.
    split.
    + simpl call_each. unfold bind at 1. rewrite Hrun.
      unfold bind at 1. rewrite Hrest. unfold ret. simpl.
      now rewrite !app_assoc.
    + rewrite !count_status_cons, !length_app. simpl List.length.
      split; [now rewrite Hlen|].
      split; [|split; [now apply Forall_app|]];
        destruct Hkind as [[-> [-> ->]]|[[-> [-> Hone]]|[-> [Hone Hle]]]];
        simpl; lia.
Qed.

(** X6.  After the agent has answered, the status is decided by the reply
    alone: 200 with the encoded reply when its message holds only values
    [json.dumps] knows, and otherwise 500 for the [TypeError] of the
    encoder; in both cases the call to the agent has taken place. *)
Theorem reply_decides_status :
  forall (ev fields : list (pystr * pyval)) (context : pyval) (w : world Mem)
         (r : reply) (s' : Mem),
    json_loads (event_body ev) = Ok (PDict fields) ->
    truthy (message_of fields) = true ->
    agent (message_of fields) (agent_state w) = (Ok r, s') ->
    if json_safe (message r)
    then exists text,
        json_dumps (message r) = Ok text /\
        lambda_handler (PDict ev) context w =
        (Ok (http_response 200 (u "{" ++ quoted (u "message") ++ u ": " ++ text ++ u "}")),
         called (message_of fields) s' w)
    else exists e,
        exn_class e = u "TypeError" /\
        lambda_handler (PDict ev) context w =
        (Ok server_error, logged e (called (message_of fields) s' w)).
Proof.
  intros ev fields context w r s' Hloads Htrue Hagent.
  rewrite (handler_agent_replies ev fields context w r s' Hloads Htrue Hagent).
  rewrite json_dumps_message.
  pose proof (json_dumps_by_safety (message r)) as Hsafe.
  unfold dumps_as_safe in Hsafe.
  destruct (json_safe (message r)).
  - destruct Hsafe as [text Htext]. exists text. now rewrite Htext.
  - destruct Hsafe as [e [Hraise Hclass]]. exists e. now rewrite Hraise.
Qed.

(** X7.  Whatever characters the text of the reply has (quotation marks,
    line breaks, characters outside ASCII), the body of the 200 response is
    made of printable ASCII characters only: the reply text is escaped and
    put between [{"message": ] and [}]. *)
Theorem text_reply_body_is_ascii :
  forall (ev fields : list (pystr * pyval)) (context : pyval) (w : world Mem)
         (text : pystr) (s' : Mem),
    json_loads (event_body ev) = Ok (PDict fields) ->
    truthy (message_of fields) = true ->
    agent (message_of fields) (agent_state w) = (Ok (mkReply (PStr text)), s') ->
    exists body,
      lambda_handler (PDict ev) context w =
      (Ok (http_response 200 body), called (message_of fields) s' w) /\
      body = u "{" ++ quoted (u "message") ++ u ": " ++
             encode_basestring_ascii text ++ u "}" /\
      forallb printable_ascii body = true.
Proof.
  intros ev fields context w text s' Hloads Htrue Hagent.
  eexists. split; [|split; [reflexivity|]].
  - rewrite (handler_agent_replies ev fields context w _ s' Hloads Htrue Hagent).
    rewrite json_dumps_message. reflexivity.
  - rewrite !forallb_app, encode_basestring_ascii_printable. reflexivity.
Qed.

(** X8.  Of the event the handler reads the ['body'] field only: two
    events with the same ['body'] (or both without one) get the same
    response and have the same effects, whatever else they carry and
    whatever the context is. *)
Theorem only_the_body_is_read :
  forall (ev1 ev2 : list (pystr * pyval)) (context1 context2 : pyval) (w : world Mem),
    dict_lookup ev1 (u "body") = dict_lookup ev2 (u "body") ->
    lambda_handler (PDict ev1) context1 w = lambda_handler (PDict ev2) context2 w.
Proof.
  intros ev1 ev2 context1 context2 w Hbody.
  assert (H : event_body ev1 = event_body ev2).
  { unfold event_body, dict_get. now rewrite Hbody. }
  run_handler. now rewrite H.
Qed.

(* ================================================================== *)
(** ** More on the lookup tools *)

Lemma dict_lookup_Some_key :
  forall (V : Type) (d : list (pystr * V)) (k : pystr) (v : V),
    dict_lookup d k = Some v -> In k (dict_keys d).
Proof.
  intros V d k v H.
  destruct (in_dec (list_eq_dec N.eq_dec) k (dict_keys d)) as [Hin|Hnot];
    [exact Hin|].
  apply dict_lookup_None in Hnot. congruence.
Qed.

(** X9.  [weather_info] does not see the case of ASCII letters, on any
    argument and not only on the keys of its table: two ASCII strings that
    differ at most in the case of their letters get the same answer. *)
Theorem weather_info_ignores_ascii_case :
  forall (s1 s2 : pystr) (w : world Mem),
    forallb is_ascii s1 = true ->
    casing_variant s1 s2 ->
    weather_info s1 w = weather_info s2 w.
Proof.
  intros s1 s2 w Hascii Hv.
  assert (H1 : str_lower s1 = map ascii_tolower s1).
  { unfold str_lower. now rewrite Hascii. }
  assert (H2 : str_lower s2 = map ascii_tolower s1).
  { apply (str_lower_casing_variant s2 Hascii). unfold casing_variant in *.
    now symmetry. }
  unfold weather_info. now rewrite H1, H2.
Qed.

(** X10.  The words "not available" occur in the answer of a tool exactly
    when the key it looked up is not in its table: no stored text has them,
    so a caller can tell a miss from a hit by the answer alone. *)
Theorem not_available_marks_a_miss :
  forall (t : lookup_tool) (s : pystr) (w : world Mem),
    exists r : pystr,
      tool_call t s w = (Ok (PStr r), w) /\
      (contains (u "not available") r = true <->
       ~ In (tool_key t s) (dict_keys (tool_table t))).
Proof.
  intros t s w. rewrite tool_call_value. unfold tool_value, dict_get.
  destruct (dict_lookup (tool_table t) (tool_key t s)) as [v|] eqn:E.
  - pose proof (dict_lookup_Some_key _ _ _ _ E) as Hin.
    assert (Hv : exists r, v = PStr r /\ contains (u "not available") r = false).
    { clear Hin. revert E. generalize (tool_key t s). intros k.
      destruct t; unfold tool_table, demo_data, weather_data; simpl;
        repeat match goal with
               | |- context [if ?c then _ else _] => destruct c
               end;
        intros H; try discriminate; injection H as <-;
        eexists; split; reflexivity. }
    destruct Hv as [r [-> Hr]]. exists r. split; [reflexivity|].
    rewrite Hr. split; [discriminate|]. intros Hnot. contradiction.
  - apply dict_lookup_None in E. destruct t; simpl tool_default.
    + exists (u "Weather data not available for " ++ s).
      split; [reflexivity|]. split; [intros _; exact E|]. intros _.
      apply contains_spec. apply substring_app_l. apply contains_spec. reflexivity.
    + exists (u "Weather information not available").
      split; [reflexivity|]. split; [intros _; exact E|]. intros _. reflexivity.
Qed.

(** X11.  The answer of [get_weather] determines the city it was asked
    about: the three stored texts differ from each other and from every
    fallback text, and the fallback text ends with the argument. *)
Theorem get_weather_answer_determines_city :
  forall (s1 s2 : pystr) (w : world Mem),
    s1 <> s2 -> get_weather s1 w <> get_weather s2 w.
Proof.
  intros s1 s2 w Hne H. apply Hne. clear Hne.
  unfold get_weather, py_get, ret in H. injection H as H.
  unfold dict_get, demo_data in H. cbn [dict_lookup] in H.
  destruct (str_eqb (u "Beijing") s1) eqn:A1;
    [|destruct (str_eqb (u "Shanghai") s1) eqn:B1;
      [|destruct (str_eqb (u "New York") s1) eqn:C1]];
    (destruct (str_eqb (u "Beijing") s2) eqn:A2;
     [|destruct (str_eqb (u "Shanghai") s2) eqn:B2;
       [|destruct (str_eqb (u "New York") s2) eqn:C2]]);
    repeat match goal with
           | E : str_eqb _ _ = true |- _ => apply str_eqb_eq in E
           end;
    try congruence;
    try (exfalso; vm_compute in H; discriminate).
Qed.

End Scripts.

Arguments get_weather {Mem} city _.
Arguments weather_info {Mem} unicode_lower location _.
Arguments lambda_handler {Mem} json_decode agent event context _.
Arguments tool_call {Mem} unicode_lower t _ _.
Arguments call_each {Mem A B} f args _.

(* ================================================================== *)
(** ** The claims at concrete inputs *)

(** C1, as the specification states it, fails for [weather_info]: "Paris"
    is not in its table, and the string it returns does not contain
    "Paris"; "London" is not in its table either, and what it returns is the
    value stored under "london", not a fallback. *)
Lemma weather_info_fallback_omits_input :
  (~ In (u "Paris") (dict_keys weather_data) /\
   (forall (Mem : Type) (unicode_lower : pystr -> pystr) (w : world Mem),
       weather_info unicode_lower (u "Paris") w =
       (Ok (PStr (u "Weather information not available")), w)) /\
   contains (u "Paris") (u "Weather information not available") = false)
  /\
  (~ In (u "London") (dict_keys weather_data) /\
   (forall (Mem : Type) (unicode_lower : pystr -> pystr) (w : world Mem),
       weather_info unicode_lower (u "London") w =
       (Ok (PStr (u "64" ++ DEGREE_SIGN :: u "F, Rainy")), w))).
Proof.
  split; [split; [|split]|split].
  - vm_compute. intuition discriminate.
  - intros Mem unicode_lower w. reflexivity.
  - reflexivity.
  - vm_compute. intuition discriminate.
  - intros Mem unicode_lower w. reflexivity.
Qed.

(** [fallback_on_unknown_key] on "Paris", for both tools. *)
Lemma fallback_on_unknown_key_paris :
  (exists r : pystr,
      tool_call ascii_only_lower GetWeather (u "Paris") fresh = (Ok (PStr r), fresh) /\
      substring (u "not available") r /\
      r = u "Weather data not available for " ++ u "Paris" /\ substring (u "Paris") r)
  /\
  (exists r : pystr,
      tool_call ascii_only_lower WeatherInfo (u "Paris") fresh = (Ok (PStr r), fresh) /\
      substring (u "not available") r /\
      r = u "Weather information not available").
Proof.
  split.
  - apply (@fallback_on_unknown_key nat ascii_only_lower GetWeather (u "Paris") fresh).
    vm_compute. intuition discriminate.
  - apply (@fallback_on_unknown_key nat ascii_only_lower WeatherInfo (u "Paris") fresh).
    vm_compute. intuition discriminate.
Defined.

(** [known_key_returns_stored_value] on the two examples of the claim. *)
Lemma known_key_examples :
  get_weather (u "Beijing") fresh =
  (Ok (PStr (u "Sunny, 25" ++ DEGREE_SIGN :: u "C")), fresh)
  /\
  weather_info ascii_only_lower (u "new york") fresh =
  (Ok (PStr (u "72" ++ DEGREE_SIGN :: u "F, Partly Cloudy")), fresh).
Proof.
  split.
  - apply (@known_key_returns_stored_value nat ascii_only_lower GetWeather).
    simpl. left. reflexivity.
  - apply (@known_key_returns_stored_value nat ascii_only_lower WeatherInfo).
    simpl. left. reflexivity.
Defined.

(** [key_matching_and_case] on the examples of the claim. *)
Lemma key_matching_examples :
  get_weather (u "beijing") fresh =
  (Ok (PStr (u "Weather data not available for " ++ u "beijing")), fresh)
  /\
  weather_info ascii_only_lower (u "New York") fresh =
  (Ok (PStr (u "72" ++ DEGREE_SIGN :: u "F, Partly Cloudy")), fresh)
  /\
  weather_info ascii_only_lower (u "NEW YORK") fresh =
  (Ok (PStr (u "72" ++ DEGREE_SIGN :: u "F, Partly Cloudy")), fresh).
Proof.
  split; [|split].
  - apply (proj1 (@key_matching_and_case nat ascii_only_lower (u "beijing")
                    (u "Beijing") fresh eq_refl)).
    + simpl. left. reflexivity.
    + discriminate.
  - apply (proj2 (@key_matching_and_case nat ascii_only_lower (u "New York")
                    (u "new york") fresh eq_refl)).
    simpl. left. reflexivity.
  - apply (proj2 (@key_matching_and_case nat ascii_only_lower (u "NEW YORK")
                    (u "new york") fresh eq_refl)).
    simpl. left. reflexivity.
Defined.

(** [missing_message_is_rejected] on the bodies [{}] and [{"message": ""}]. *)
Lemma missing_message_examples :
  lambda_handler json_decode_fragment greeter (event_with_body (u "{}")) PNone fresh =
  (Ok (http_response 400 (error_body (u "No message provided"))), fresh)
  /\
  lambda_handler json_decode_fragment greeter
    (event_with_body (u "{" ++ quoted (u "message") ++ u ": " ++ quoted (u "") ++ u "}"))
    PNone fresh =
  (Ok (http_response 400 (error_body (u "No message provided"))), fresh).
Proof.
  split.
  - apply (@missing_message_is_rejected nat json_decode_fragment greeter
             [(u "body", PStr (u "{}"))] [] PNone fresh).
    + reflexivity.
    + left. reflexivity.
  - apply (@missing_message_is_rejected nat json_decode_fragment greeter
             [(u "body", PStr (u "{" ++ quoted (u "message") ++ u ": " ++ quoted (u "") ++ u "}"))]
             [(u "message", PStr (u ""))] PNone fresh).
    + reflexivity.
    + right. reflexivity.
Defined.

(** [hello_gets_the_reply] on the body [{"message": "hello"}] and the
    agent [greeter]. *)
Lemma hello_example :
  lambda_handler json_decode_fragment greeter
    (event_with_body (message_body (u "hello"))) PNone fresh =
  (Ok (http_response 200 (message_body (u "hi there"))),
   mkWorld [] [PStr (u "hello")] 1).
Proof.
  apply (@hello_gets_the_reply nat json_decode_fragment greeter
           [(u "body", PStr (message_body (u "hello")))] PNone fresh 1).
  - reflexivity.
  - reflexivity.
Defined.

(** [agent_failure_is_internal_error] on a prompt that [greeter] fails on. *)
Lemma agent_failure_example :
  lambda_handler json_decode_fragment greeter
    (event_with_body (message_body (u "weather in Tokyo"))) PNone fresh =
  (Ok (http_response 500 (error_body (u "Internal server error"))),
   mkWorld [u "Error: model not reachable"] [PStr (u "weather in Tokyo")] 1).
Proof.
  apply (@agent_failure_is_internal_error nat json_decode_fragment greeter
           [(u "body", PStr (message_body (u "weather in Tokyo")))]
           [(u "message", PStr (u "weather in Tokyo"))]
           (PStr (u "weather in Tokyo")) PNone fresh
           (mkExn (u "RuntimeError") (u "model not reachable")) 1).
  - reflexivity.
  - reflexivity.
  - reflexivity.
  - reflexivity.
Defined.

(** [invalid_body_is_internal_error] on a body that is not JSON, and on a
    body that is [None]. *)
Lemma invalid_body_examples :
  lambda_handler json_decode_fragment greeter (event_with_body (u "not json")) PNone fresh =
  (Ok (http_response 500 (error_body (u "Internal server error"))),
   mkWorld [u "Error: Expecting value"] [] 0)
  /\
  lambda_handler json_decode_fragment greeter (PDict [(u "body", PNone)]) PNone fresh =
  (Ok (http_response 500 (error_body (u "Internal server error"))),
   mkWorld [u "Error: the JSON object must be str, bytes or bytearray, not NoneType"] [] 0).
Proof.
  split.
  - apply (@invalid_body_is_internal_error nat json_decode_fragment greeter
             [(u "body", PStr (u "not json"))] (PStr (u "not json")) PNone fresh
             (JSONDecodeError (u "Expecting value"))).
    + reflexivity.
    + reflexivity.
  - apply (@invalid_body_is_internal_error nat json_decode_fragment greeter
             [(u "body", PNone)] PNone PNone fresh
             (TypeError (u "the JSON object must be str, bytes or bytearray, not NoneType"))).
    + reflexivity.
    + reflexivity.
Defined.

(** [lambda_handler_always_responds] on the empty event. *)
Lemma empty_event_example :
  lambda_handler json_decode_fragment greeter (PDict []) PNone fresh =
  (Ok (http_response 400 (error_body (u "No message provided"))), fresh).
Proof.
  apply (proj2 (@lambda_handler_always_responds nat json_decode_fragment greeter
                  (PDict []) PNone fresh) eq_refl [] eq_refl eq_refl).
Defined.

(* ================================================================== *)
(** ** The further properties at concrete inputs *)

(** [non_object_payload_is_internal_error] on the body [[]]. *)
Lemma list_body_example :
  exists culprit : pyval,
    (forall d, culprit <> PDict d) /\
    lambda_handler json_decode_fragment greeter (event_with_body (u "[]")) PNone fresh =
    (Ok (http_response 500 (error_body (u "Internal server error"))),
     mkWorld [u "Error: '" ++ type_name culprit ++ u "' object has no attribute 'get'"]
             [] 0).
Proof.
  apply (@non_object_payload_is_internal_error nat json_decode_fragment greeter
           (event_with_body (u "[]")) PNone fresh).
  right. exists [(u "body", PStr (u "[]"))], (PList []).
  split; [reflexivity|]. split; [reflexivity|]. discriminate.
Defined.


(** [true_message_reaches_agent] on the body [{"message": 42}]. *)
Lemma number_message_example :
  agent_calls (snd (lambda_handler json_decode_fragment greeter
                      (event_with_body (u "{" ++ quoted (u "message") ++ u ": 42}"))
                      PNone fresh)) = [PInt 42]
  /\
  agent_state (snd (lambda_handler json_decode_fragment greeter
                      (event_with_body (u "{" ++ quoted (u "message") ++ u ": 42}"))
                      PNone fresh)) = 1.
Proof.
  apply (@true_message_reaches_agent nat json_decode_fragment greeter
           [(u "body", PStr (u "{" ++ quoted (u "message") ++ u ": 42}"))]
           [(u "message", PInt 42)] (PInt 42) PNone fresh).
  - reflexivity.
  - reflexivity.
  - reflexivity.
Defined.

(** [reply_decides_status] on an agent whose reply cannot be encoded. *)
Lemma opaque_reply_example :
  exists e : exn,
    exn_class e = u "TypeError" /\
    lambda_handler json_decode_fragment opaque_agent
      (event_with_body (message_body (u "hello"))) PNone fresh =
    (Ok (http_response 500 (error_body (u "Internal server error"))),
     mkWorld [u "Error: " ++ exn_text e] [PStr (u "hello")] 1).
Proof.
  exact (@reply_decides_status nat json_decode_fragment opaque_agent
           [(u "body", PStr (message_body (u "hello")))]
           [(u "message", PStr (u "hello"))] PNone fresh
           (mkReply (PObj (u "AgentResult"))) 1 eq_refl eq_refl eq_refl).
Defined.

(** [text_reply_body_is_ascii] on a reply with a letter outside ASCII
    (U+00E9) and a line break. *)
Lemma escaped_reply_example :
  exists body : pystr,
    lambda_handler json_decode_fragment echo_agent
      (event_with_body (message_body (u "caf" ++ [233%N] ++ u "\n"))) PNone fresh =
    (Ok (http_response 200 body), mkWorld [] [PStr (u "caf" ++ [233; 10]%N)] 1) /\
    body = message_body (u "caf\u00e9\n") /\
    forallb printable_ascii body = true.
Proof.
  apply (@text_reply_body_is_ascii nat json_decode_fragment echo_agent
           [(u "body", PStr (message_body (u "caf" ++ [233%N] ++ u "\n")))]
           [(u "message", PStr (u "caf" ++ [233; 10]%N))] PNone fresh
           (u "caf" ++ [233; 10]%N) 1).
  - reflexivity.
  - reflexivity.
  - reflexivity.
Defined.

(** [only_the_body_is_read] on an event with more fields than ['body']. *)
Lemma extra_fields_example :
  lambda_handler json_decode_fragment greeter
    (PDict [(u "httpMethod", PStr (u "POST"));
            (u "body", PStr (message_body (u "hello")));
            (u "isBase64Encoded", PBool true)])
    (PStr (u "context")) fresh =
  lambda_handler json_decode_fragment greeter
    (event_with_body (message_body (u "hello"))) PNone fresh.
Proof.
  apply (@only_the_body_is_read nat json_decode_fragment greeter).
  reflexivity.
Defined.

(** [weather_info_ignores_ascii_case] on a key and on a city that is not
    in the table. *)
Lemma ascii_case_examples :
  weather_info ascii_only_lower (u "ToKyO") fresh =
  weather_info ascii_only_lower (u "tokyo") fresh
  /\
  weather_info ascii_only_lower (u "PARIS") fresh =
  weather_info ascii_only_lower (u "Paris") fresh.
Proof.
  split.
  - apply (@weather_info_ignores_ascii_case nat ascii_only_lower); reflexivity.
  - apply (@weather_info_ignores_ascii_case nat ascii_only_lower); reflexivity.
Defined.

(** [get_weather_answer_determines_city] on two cities that are not in the
    table, and on a city and a key. *)
Lemma distinct_answers_examples :
  get_weather (u "Paris") fresh <> get_weather (u "Rome") fresh
  /\
  get_weather (u "beijing") fresh <> get_weather (u "Beijing") fresh.
Proof.
  split.
  - apply (@get_weather_answer_determines_city nat). discriminate.
  - apply (@get_weather_answer_determines_city nat). discriminate.
Defined.
